(** * Redpanda Connect: the [ollama_chat] processor and the enterprise CLI

    A shallow embedding of

    - [internal/impl/ollama/chat_processor.go]: [Process], [computePrompt]
      and [generateCompletion] of [ollamaCompletionProcessor], and its
      constructor [makeOllamaCompletionProcessor];
    - the enterprise CLI entry point [InitEnterpriseCLI].

    Go values of type [(T, error)] are pairs [T * option error], with [None]
    for the [nil] error.  Go strings are byte sequences and are modelled by
    [string]; [[]byte] is [list byte].  Messages are handled through
    pointers, so they live in a heap ([gmap loc message.Part]). *)

From Stdlib Require Import ZArith Strings.Byte Strings.String.
From stdpp Require Import base option list gmap strings.

Local Open Scope string_scope.
Local Open Scope list_scope.
Local Open Scope Z_scope.

(** ** Go built-ins and standard library *)

(** The [error] interface: all an error shows is its [Error()] text. *)
Record error : Type := errorString { Error : string }.

Module errors.
(** [errors.New(text)] *)
Definition New (text : string) : error := errorString text.
End errors.

(** Conversions [string(b)] and [[]byte(s)]. *)
Definition string_of_bytes (b : list byte) : string := string_of_list_byte b.
Definition bytes_of_string (s : string) : list byte := list_byte_of_string s.

Module utf8.

Definition code (b : byte) : Z := Z.of_N (Byte.to_N b).

(** A continuation byte, [0x80 .. 0xBF], or one in the range [lo .. hi]. *)
Definition between (lo hi : Z) (b : byte) : bool :=
  (lo <=? code b) && (code b <=? hi).

(** [utf8.Valid(p)]: whether [p] consists entirely of valid UTF-8 encoded
    runes.  The accepted ranges are those of the package's
    [acceptRanges] table: no overlong forms, no surrogates, nothing above
    U+10FFFF. *)
Fixpoint Valid (p : list byte) : bool :=
  match p with
  | [] => true
  | b0 :: p1 =>
    let x := code b0 in
    if x <? 0x80 then Valid p1
    else if (0xC2 <=? x) && (x <=? 0xDF) then
      match p1 with
      | b1 :: p2 => between 0x80 0xBF b1 && Valid p2
      | _ => false
      end
    else if (0xE0 <=? x) && (x <=? 0xEF) then
      match p1 with
      | b1 :: b2 :: p3 =>
        between (if x =? 0xE0 then 0xA0 else 0x80)
                (if x =? 0xED then 0x9F else 0xBF) b1
        && between 0x80 0xBF b2 && Valid p3
      | _ => false
      end
    else if (0xF0 <=? x) && (x <=? 0xF4) then
      match p1 with
      | b1 :: b2 :: b3 :: p4 =>
        between (if x =? 0xF0 then 0x90 else 0x80)
                (if x =? 0xF4 then 0x8F else 0xBF) b1
        && between 0x80 0xBF b2 && between 0x80 0xBF b3 && Valid p4
      | _ => false
      end
    else false
  end.

End utf8.

Module context.
(** What this development observes of a [context.Context]: its deadline
    (as [Deadline()] reports it) and whether [Done()] returns a channel
    that can ever be closed. *)
Record Context : Type := {
  Deadline : option Z;
  Done : bool;
}.

(** [context.Background()]: never cancelled, no values, no deadline. *)
Definition Background : Context := {| Deadline := None; Done := false |}.

(** A context bounds the call it is given to when it has a deadline or
    can be cancelled. *)
Definition bounded (c : Context) : bool :=
  match Deadline c with Some _ => true | None => Done c end.
End context.

(** ** The Ollama client API ([github.com/ollama/ollama/api]) *)

Module api.

Record Message : Type := {
  Role : string;
  Content : string;
}.

Record ChatRequest : Type := {
  Model : string;
  Messages : list Message;
  Stream : option bool;          (* [*bool], [None] for [nil] *)
}.

Record ChatResponse : Type := {
  Response : Message;            (* the field [Message] of the response *)
  Done : bool;
}.

(** What passes between the processor and the backend: a request sent,
    and each response handed to the callback of [Chat]. *)
Inductive Event : Type :=
| Sent (ctx : context.Context) (req : ChatRequest)
| Received (resp : ChatResponse).

(** The backend behind a [*api.Client]: given the exchange so far, the
    context and the request, the responses it delivers (one in
    non-streaming mode, several partial ones otherwise) and the error the
    call ends with. *)
Record Client : Type := {
  reply : list Event -> context.Context -> ChatRequest ->
          list ChatResponse * option error;
}.

Section Chat.
Context {S : Type}.
(** [ChatResponseFunc], as a transformer of the variables it captures. *)
Variable fn : ChatResponse -> S -> S * option error.

(** The response loop of the client: [fn] is called on each response in
    turn and a callback error ends the call at once. *)
Fixpoint stream (resps : list ChatResponse) (final : option error)
    (s : S) (log : list Event) : (S * option error) * list Event :=
  match resps with
  | [] => ((s, final), log)
  | resp :: rest =>
    let '(s', err) := fn resp s in
    let log' := log ++ [Received resp] in
    match err with
    | Some e => ((s', Some e), log')
    | None => stream rest final s' log'
    end
  end.

(** [client.Chat(ctx, &req, fn)] *)
Definition Chat (c : Client) (ctx : context.Context) (req : ChatRequest)
    (s : S) (log : list Event) : (S * option error) * list Event :=
  let '(resps, final) := reply c log ctx req in
  stream resps final s (log ++ [Sent ctx req]).
End Chat.

End api.

(** ** Messages ([github.com/redpanda-data/benthos/v4/public/service]) *)

Module message.

(** The payload of a message part: raw bytes, or a structured value, kept
    as what serialising it gives. *)
Inductive Payload : Type :=
| RawBytes (b : list byte)
| Structured (enc : list byte * option error).

(** What a [*service.Message] points to. *)
Record Part : Type := {
  payload : Payload;
  metadata : gmap string string;
}.

Definition AsBytes (p : Part) : list byte * option error :=
  match payload p with
  | RawBytes b => (b, None)
  | Structured enc => enc
  end.

Definition SetBytes (b : list byte) (p : Part) : Part :=
  {| payload := RawBytes b; metadata := metadata p |}.

End message.

(** ** Program state *)

Definition loc : Type := positive.

Record World : Type := {
  heap : gmap loc message.Part;      (* the messages that pointers reach *)
  exchange : list api.Event;         (* traffic with the backend so far *)
}.

(** Computations over the world; [None] is a panic (nil dereference). *)
Definition M (A : Type) : Type := World -> option (A * World).

Definition ret {A} (a : A) : M A := fun w => Some (a, w).

Definition bind {A B} (m : M A) (k : A -> M B) : M B :=
  fun w => match m w with
           | Some (a, w') => k a w'
           | None => None
           end.

Declare Scope go_scope.
Delimit Scope go_scope with go.
Notation "x <- m ;; k" := (bind m (fun x => k))
  (at level 100, m at next level, right associativity) : go_scope.

Definition load (p : loc) : M message.Part :=
  fun w => match heap w !! p with
           | Some d => Some (d, w)
           | None => None
           end.

Definition store (p : loc) (d : message.Part) : M unit :=
  fun w => match heap w !! p with
           | Some _ => Some (tt, {| heap := <[p := d]> (heap w);
                                    exchange := exchange w |})
           | None => None
           end.

Definition alloc (d : message.Part) : M loc :=
  fun w => let p := fresh (dom (heap w)) in
           Some (p, {| heap := <[p := d]> (heap w);
                       exchange := exchange w |}).

(** Runs a step of the backend exchange. *)
Definition backend {A} (f : list api.Event -> A * list api.Event) : M A :=
  fun w => let '(a, log) := f (exchange w) in
           Some (a, {| heap := heap w; exchange := log |}).

Module service.

(** [[]*Message] *)
Definition MessageBatch : Type := list loc.

(** [msg.AsBytes()] *)
Definition AsBytes (msg : loc) : M (list byte * option error) :=
  (d <- load msg ;; ret (message.AsBytes d))%go.

(** [msg.Copy()]: a new message that can be set without changing [msg]. *)
Definition Copy (msg : loc) : M loc :=
  (d <- load msg ;; alloc d)%go.

(** [msg.SetBytes(b)] *)
Definition SetBytes (msg : loc) (b : list byte) : M unit :=
  (d <- load msg ;; store msg (message.SetBytes b d))%go.

(** A compiled interpolated string: how it evaluates on a message. *)
Record InterpolatedString : Type := {
  eval : message.Part -> string * option error;
}.

(** [i.TryString(msg)] *)
Definition TryString (i : InterpolatedString) (msg : loc)
    : M (string * option error) :=
  (d <- load msg ;; ret (eval i d))%go.

End service.

(** ** The [ollama_chat] processor *)

Module ollama.

(** The fields of [baseOllamaProcessor] that the chat processor reads. *)
Record baseOllamaProcessor : Type := {
  model : string;
  client : api.Client;
}.

Record ollamaCompletionProcessor : Type := {
  base : baseOllamaProcessor;
  userPrompt : option service.InterpolatedString;
  systemPrompt : option service.InterpolatedString;
}.

Section Processor.
Variable o : ollamaCompletionProcessor.

Definition computePrompt (msg : loc) : M (string * option error) :=
  match userPrompt o with
  | Some t => service.TryString t msg
  | None =>
    (r <- service.AsBytes msg ;;
     let '(b, err) := r in
     match err with
     | Some e => ret ("", Some e)
     | None =>
       if negb (utf8.Valid b)
       then ret ("", Some (errors.New "message payload contained invalid UTF8"))
       else ret (string_of_bytes b, None)
     end)%go
  end.

(** The request that [generateCompletion] builds before calling the
    backend. *)
Definition chatRequest (systemPrompt userPrompt : string) : api.ChatRequest :=
  let Messages : list api.Message := [] in
  let Messages :=
    if decide (systemPrompt <> "")
    then Messages ++ [ {| api.Role := "system"; api.Content := systemPrompt |} ]
    else Messages in
  let Messages :=
    Messages ++ [ {| api.Role := "user"; api.Content := userPrompt |} ] in
  let shouldStream := false in
  {| api.Model := model (base o);
     api.Messages := Messages;
     api.Stream := Some shouldStream |}.

Definition generateCompletion (ctx : context.Context)
    (systemPrompt userPrompt : string) : M (string * option error) :=
  let req := chatRequest systemPrompt userPrompt in
  let g := "" in
  backend (api.Chat
             (fun resp _ => (api.Content (api.Response resp), None))
             (client (base o)) ctx req g).

Definition Process (ctx : context.Context) (msg : loc)
    : M (service.MessageBatch * option error) :=
  let rest (sp : string) : M (service.MessageBatch * option error) :=
    (r <- computePrompt msg ;;
     let '(up, err) := r in
     match err with
     | Some e => ret ([], Some e)
     | None =>
       r <- generateCompletion ctx sp up ;;
       let '(g, err) := r in
       match err with
       | Some e => ret ([], Some e)
       | None =>
         m <- service.Copy msg ;;
         _ <- service.SetBytes m (bytes_of_string g) ;;
         ret ([m], None)
       end
     end)%go in
  match systemPrompt o with
  | Some t =>
    (r <- service.TryString t msg ;;
     let '(p, err) := r in
     match err with
     | Some e => ret ([], Some e)
     | None => rest p
     end)%go
  | None => rest ""
  end.

End Processor.

End ollama.

(** ** The enterprise CLI *)

Module cli.

(** [*service.ParsedConfig]: a parsed configuration and the path of the
    namespace looked at. *)
Record ParsedConfig : Type := {
  conf : loc;
  path : list string;
}.

Definition Namespace (c : ParsedConfig) (name : string) : ParsedConfig :=
  {| conf := conf c; path := path c ++ [name] |}.

(** What the orchestrator does to its collaborators, in order: the calls
    on the topic logger [rpLogger], the error output, and [os.Exit]. *)
Inductive Event : Type :=
| NewTopicLogger (id : string)
| SetFallbackLogger (l : loc)
| Handle (record : string)
| InitOutputFromParsed (c : ParsedConfig)
| SetStreamSummary (s : loc)
| LoggerError (l : loc) (msg : string)
| StderrPrintln (msg : string)
| TriggerEventStopped (err : option error)
| Close (ctx : context.Context)
| Exit (code : Z).

(** The static options handed to the benthos CLI. *)
Record Settings : Type := {
  Version : string;
  DateBuilt : string;
  BinaryName : string;
  ProductName : string;
  DefaultConfigPaths : list string;
  DocumentationURL : string;
  RemoveDefaultInputOutput : bool;
}.

(** A run of the benthos CLI: it calls the registered hooks when it
    chooses to, sees what they return, and ends with an exit code and an
    error. *)
Inductive Engine : Type :=
| Return (exitCode : Z) (err : option error)
| LoggerInit (l : loc) (k : Engine)
| TeeLog (record : string) (k : Engine)
| ConfigParse (c : ParsedConfig) (k : option error -> Engine)
| StreamStart (s : loc) (k : option error -> Engine).

(** The variables of [InitEnterpriseCLI] that its closures share. *)
Record State : Type := {
  fbLogger : option loc;
  events : list Event;
}.

Definition emit (e : Event) (st : State) : State :=
  {| fbLogger := fbLogger st; events := events st ++ [e] |}.

Record Hooks : Type := {
  OnLoggerInit : loc -> State -> State;
  TeeLogger : string -> State -> State;
  OnConfigParse : ParsedConfig -> State -> option error * State;
  OnStreamStart : loc -> State -> option error * State;
}.

(** [service.RunCLIToCode(ctx, opts...)] *)
Fixpoint RunCLIToCode (h : Hooks) (e : Engine) (st : State)
    : (Z * option error) * State :=
  match e with
  | Return exitCode err => ((exitCode, err), st)
  | LoggerInit l k => RunCLIToCode h k (OnLoggerInit h l st)
  | TeeLog r k => RunCLIToCode h k (TeeLogger h r st)
  | ConfigParse c k =>
    let '(err, st') := OnConfigParse h c st in RunCLIToCode h (k err) st'
  | StreamStart s k =>
    let '(err, st') := OnStreamStart h s st in RunCLIToCode h (k err) st'
  end.

Section Orchestrator.
(** What [InitOutputFromParsed] of the topic logger returns, given the
    calls made so far. *)
Variable initOutput : list Event -> ParsedConfig -> option error.
(** What benthos does under given settings and the caller's options. *)
Variable benthos : Settings -> Engine.

Definition settings (binaryName version dateBuilt : string)
    (removeDefaultInputOutput : bool) : Settings :=
  {| Version := version;
     DateBuilt := dateBuilt;
     BinaryName := binaryName;
     ProductName := "Redpanda Connect";
     DefaultConfigPaths :=
       [ "redpanda-connect.yaml";
         "/redpanda-connect.yaml";
         "/etc/redpanda-connect/config.yaml";
         "/etc/redpanda-connect.yaml";
         "connect.yaml";
         "/connect.yaml";
         "/etc/connect/config.yaml";
         "/etc/connect.yaml";
         "/benthos.yaml";
         "/etc/benthos/config.yaml";
         "/etc/benthos.yaml" ];
     DocumentationURL := "https://docs.redpanda.com/redpanda-connect";
     RemoveDefaultInputOutput := removeDefaultInputOutput |}.

(** The four hooks that [InitEnterpriseCLI] registers. *)
Definition hooks : Hooks :=
  {| OnLoggerInit := fun l st =>
       emit (SetFallbackLogger l) {| fbLogger := Some l; events := events st |};
     TeeLogger := fun r st => emit (Handle r) st;
     OnConfigParse := fun fn st =>
       let c := Namespace fn "redpanda" in
       (initOutput (events st) c, emit (InitOutputFromParsed c) st);
     OnStreamStart := fun s st => (None, emit (SetStreamSummary s) st) |}.

(** [InitEnterpriseCLI]; [id] is [xid.New().String()].  The result is the
    sequence of events and, when [os.Exit] was called, its code. *)
Definition InitEnterpriseCLI (id : string)
    (binaryName version dateBuilt : string)
    (removeDefaultInputOutput : bool) : list Event * option Z :=
  let st := {| fbLogger := None; events := [NewTopicLogger id] |} in
  let '((exitCode, err), st) :=
    RunCLIToCode hooks
      (benthos (settings binaryName version dateBuilt removeDefaultInputOutput))
      st in
  let st :=
    match err with
    | Some e =>
      match fbLogger st with
      | Some l => emit (LoggerError l (Error e)) st
      | None => emit (StderrPrintln (Error e)) st
      end
    | None => st
    end in
  let st := emit (TriggerEventStopped err) st in
  let st := emit (Close context.Background) st in
  if decide (exitCode <> 0)
  then (events (emit (Exit exitCode) st), Some exitCode)
  else (events st, None).

End Orchestrator.

(** The exit status of the process: that given to [os.Exit], and 0 when
    the program returns from [main]. *)
Definition exitStatus (r : list Event * option Z) : Z :=
  match snd r with
  | Some code => code
  | None => 0
  end.

End cli.

(** ** Vocabulary of the statements *)

(** The entries of a request with a given role. *)
Definition entries (role : string) (req : api.ChatRequest) : list api.Message :=
  filter (fun m => api.Role m = role) (api.Messages req).

(** The content of the last response of a reply; the empty string when
    there is none. *)
Definition terminalContent (resps : list api.ChatResponse) : string :=
  List.last (map (fun r => api.Content (api.Response r)) resps) "".

(** The system prompt that [Process] resolves on a message. *)
Definition resolveSystem (o : ollama.ollamaCompletionProcessor)
    (d : message.Part) : string * option error :=
  match ollama.systemPrompt o with
  | Some t => service.eval t d
  | None => ("", None)
  end.

(** ** Sample inputs *)

Module sample.

Definition part (b : list byte) : message.Part :=
  {| message.payload := message.RawBytes b;
     message.metadata := {[ "kafka_key" := "k1" ]} |}.

(** A world with one message, at address 1. *)
Definition world (b : list byte) : World :=
  {| heap := {[ 1%positive := part b ]}; exchange := [] |}.

Definition response (content : string) (done : bool) : api.ChatResponse :=
  {| api.Response := {| api.Role := "assistant"; api.Content := content |};
     api.Done := done |}.

(** A backend that answers every request with the given responses. *)
Definition backend (resps : list api.ChatResponse) (final : option error)
    : api.Client :=
  {| api.reply := fun _ _ _ => (resps, final) |}.

Definition processor (c : api.Client)
    (user system : option service.InterpolatedString)
    : ollama.ollamaCompletionProcessor :=
  {| ollama.base := {| ollama.model := "llama3"; ollama.client := c |};
     ollama.userPrompt := user;
     ollama.systemPrompt := system |}.

(** A template that evaluates to a constant, and one that fails. *)
Definition literal (s : string) : service.InterpolatedString :=
  {| service.eval := fun _ => (s, None) |}.

Definition failing (text : string) : service.InterpolatedString :=
  {| service.eval := fun _ => ("", Some (errors.New text)) |}.

Definition oneShot : api.Client := backend [response "hi there" true] None.

(** A backend that delivers partial responses before the final one. *)
Definition chunked : api.Client :=
  backend [response "hi" false; response " there" false;
           response "hi there" true] None.

(** The bytes [0xFF 0xFE], which are not valid UTF-8. *)
Definition invalid : list byte := [xff; xfe].

(** A processor whose system prompt fails to evaluate. *)
Definition brokenSystem : ollama.ollamaCompletionProcessor :=
  processor oneShot None (Some (failing "field not found")).

End sample.

(** ** Vocabulary of the statements on the CLI *)

Module trace.
Import cli.

Definition isStopped (e : Event) : bool :=
  match e with TriggerEventStopped _ => true | _ => false end.

Definition isClose (e : Event) : bool :=
  match e with Close _ => true | _ => false end.

Definition isExit (e : Event) : bool :=
  match e with Exit _ => true | _ => false end.

(** The two ways an error is reported. *)
Definition isReport (e : Event) : bool :=
  match e with LoggerError _ _ | StderrPrintln _ => true | _ => false end.

(** The events that the registered hooks give rise to. *)
Definition isHook (e : Event) : bool :=
  match e with
  | SetFallbackLogger _ | Handle _ | InitOutputFromParsed _
  | SetStreamSummary _ => true
  | _ => false
  end.

(** The logger that the on-logger-init hook captured, if it ever ran. *)
Definition capture (fb : option loc) (e : Event) : option loc :=
  match e with SetFallbackLogger l => Some l | _ => fb end.

Definition captured (evs : list Event) : option loc :=
  fold_left capture evs None.

(** The engine run that [InitEnterpriseCLI] makes: its exit code, its
    error, and the state it leaves. *)
Definition engineRun (initOutput : list Event -> ParsedConfig -> option error)
    (benthos : Settings -> Engine) (id binaryName version dateBuilt : string)
    (removeDefaultInputOutput : bool) : (Z * option error) * State :=
  RunCLIToCode (hooks initOutput)
    (benthos (settings binaryName version dateBuilt removeDefaultInputOutput))
    {| fbLogger := None; events := [NewTopicLogger id] |}.

(** How the error of a run is reported. *)
Definition report (fb : option loc) (err : option error) : list Event :=
  match err with
  | Some e =>
    match fb with
    | Some l => [LoggerError l (Error e)]
    | None => [StderrPrintln (Error e)]
    end
  | None => []
  end.

End trace.

Module sampleCLI.
Import cli.

Definition noOutput : list Event -> ParsedConfig -> option error :=
  fun _ _ => None.

(** A clean run: the logger is set up, the configuration parsed, the
    stream started, and the engine returns 0 without error. *)
Definition clean (_ : Settings) : Engine :=
  LoggerInit 7%positive
    (ConfigParse {| conf := 3%positive; path := [] |} (fun _ =>
     StreamStart 5%positive (fun _ =>
     TeeLog "stream started" (Return 0 None)))).

(** A run that fails before any logger exists. *)
Definition early (_ : Settings) : Engine :=
  Return 1 (Some (errors.New "config file not found")).

(** A run that fails after the logger is set up. *)
Definition late (_ : Settings) : Engine :=
  LoggerInit 7%positive
    (ConfigParse {| conf := 3%positive; path := [] |} (fun err =>
     Return 2 (Some (errors.New "lint errors")))).

End sampleCLI.

(** ** Construction of the processor from its configuration *)

Module ollamaConfig.
Import ollama.

Definition ocpFieldUserPrompt : string := "prompt".
Definition ocpFieldSystemPrompt : string := "system_prompt".

(** A [*service.ParsedConfig], as the answers it gives: whether a field is
    set, and the interpolated string compiled from a field. *)
Record ParsedConfig : Type := {
  Contains : string -> bool;
  FieldInterpolatedString :
    string -> option service.InterpolatedString * option error;
}.

Section Make.
(** [*service.Resources] *)
Context {Resources : Type}.
(** [newBaseProcessor] of base_processor.go: the base processor, or the
    error it fails with (the pointer is nil exactly when the error is
    not). *)
Variable newBaseProcessor :
  ParsedConfig -> Resources -> baseOllamaProcessor + error.

Definition makeOllamaCompletionProcessor (conf : ParsedConfig)
    (mgr : Resources) : option ollamaCompletionProcessor * option error :=
  let finish (user system : option service.InterpolatedString) :=
    match newBaseProcessor conf mgr with
    | inr e => (None, Some e)
    | inl b =>
      (Some {| base := b; userPrompt := user; systemPrompt := system |}, None)
    end in
  let withSystem (user : option service.InterpolatedString) :=
    if Contains conf ocpFieldSystemPrompt
    then
      let '(pf, err) := FieldInterpolatedString conf ocpFieldSystemPrompt in
      match err with
      | Some e => (None, Some e)
      | None => finish user pf
      end
    else finish user None in
  if Contains conf ocpFieldUserPrompt
  then
    let '(pf, err) := FieldInterpolatedString conf ocpFieldUserPrompt in
    match err with
    | Some e => (None, Some e)
    | None => withSystem pf
    end
  else withSystem None.

End Make.

End ollamaConfig.

(** ** More vocabulary *)

(** The requests that went to the backend, oldest first. *)
Definition sent (log : list api.Event)
    : list (context.Context * api.ChatRequest) :=
  omap (fun e => match e with
                 | api.Sent ctx req => Some (ctx, req)
                 | api.Received _ => None
                 end) log.

(** A byte that no UTF-8 encoding contains: [0xC0], [0xC1], and
    [0xF5 .. 0xFF]. *)
Definition neverInUTF8 (b : byte) : bool :=
  (utf8.code b =? 0xC0) || (utf8.code b =? 0xC1) || (0xF5 <=? utf8.code b).

Definition isASCII (b : byte) : bool := utf8.code b <? 0x80.

Module traceMore.
Import cli.

Definition isNewTopicLogger (e : Event) : bool :=
  match e with NewTopicLogger _ => true | _ => false end.

Definition isSetFallbackLogger (e : Event) : bool :=
  match e with SetFallbackLogger _ => true | _ => false end.

Definition isStderr (e : Event) : bool :=
  match e with StderrPrintln _ => true | _ => false end.

Definition isLoggerError (e : Event) : bool :=
  match e with LoggerError _ _ => true | _ => false end.

(** The event is not an output initialisation, or it is one on the
    [redpanda] namespace of some configuration. *)
Definition onRedpandaNamespace (e : Event) : Prop :=
  match e with
  | InitOutputFromParsed c => exists fn, c = Namespace fn "redpanda"
  | _ => True
  end.

End traceMore.

Module sampleConfig.
Import ollamaConfig.

(** Only the model is configured. *)
Definition modelOnly : ParsedConfig :=
  {| Contains := fun _ => false;
     FieldInterpolatedString := fun _ =>
       (None, Some (errors.New "field not found")) |}.

(** A [prompt] that does not compile, next to a [system_prompt] that
    does not either. *)
Definition badPrompts : ParsedConfig :=
  {| Contains := fun _ => true;
     FieldInterpolatedString := fun name =>
       (None, Some (errors.New ("failed to parse " ++ name)%string)) |}.

(** A [prompt] that compiles and a [system_prompt] that does not. *)
Definition badSystem : ParsedConfig :=
  {| Contains := fun _ => true;
     FieldInterpolatedString := fun name =>
       if decide (name = "prompt")
       then (Some (sample.literal "summarise"), None)
       else (None, Some (errors.New ("failed to parse " ++ name)%string)) |}.

Definition newBase (_ : ParsedConfig) (_ : unit)
    : ollama.baseOllamaProcessor + error :=
  inl {| ollama.model := "llama3"; ollama.client := sample.oneShot |}.

Definition noBase (_ : ParsedConfig) (_ : unit)
    : ollama.baseOllamaProcessor + error :=
  inr (errors.New "failed to start ollama").

End sampleConfig.

Module sampleBackend.

(** A backend whose call breaks off after a partial response. *)
Definition dropped : api.Client :=
  sample.backend [sample.response "hi" false]
    (Some (errors.New "connection reset")).

(** A backend that ends the call without any response. *)
Definition silent : api.Client := sample.backend [] None.



End sampleBackend.

Module sampleRetry.

Definition once : option (service.MessageBatch * option error * World) :=
  ollama.Process (sample.processor sample.oneShot None None)
    context.Background 1%positive (sample.world (bytes_of_string "hello")).

(** The world after one successful call of [Process]. *)
Definition afterOne : World :=
  match once with
  | Some (_, w) => w
  | None => sample.world (bytes_of_string "hello")
  end.

(** The world after a second call on the same message. *)
Definition afterTwo : World :=
  match ollama.Process (sample.processor sample.oneShot None None)
          context.Background 1%positive afterOne with
  | Some (_, w) => w
  | None => afterOne
  end.


End sampleRetry.

(** * Properties *)

(** ** UTF-8 validity on samples *)

Example Valid_ascii : utf8.Valid (bytes_of_string "hello") = true.
Proof. reflexivity. Qed.

Example Valid_two_bytes : utf8.Valid [xc3; xa9] = true.
Proof. reflexivity. Qed.

Example Valid_three_bytes : utf8.Valid [xe2; x82; xac] = true.
Proof. reflexivity. Qed.

Example Valid_four_bytes : utf8.Valid [xf0; x9f; x98; x80] = true.
Proof. reflexivity. Qed.

Example Valid_rejects_ff_fe : utf8.Valid sample.invalid = false.
Proof. reflexivity. Qed.

Example Valid_rejects_overlong : utf8.Valid [xc0; x80] = false.
Proof. reflexivity. Qed.

Example Valid_rejects_surrogate : utf8.Valid [xed; xa0; x80] = false.
Proof. reflexivity. Qed.

Example Valid_rejects_truncated : utf8.Valid [xe2; x82] = false.
Proof. reflexivity. Qed.

Example Valid_rejects_above_max : utf8.Valid [xf4; x90; x80; x80] = false.
Proof. reflexivity. Qed.

(** ** Running the primitives *)

Section Primitives.
Context (w : World) (msg : loc) (d : message.Part).
Hypothesis Hmsg : heap w !! msg = Some d.

Lemma load_allocated : load msg w = Some (d, w).
Proof using Hmsg. unfold load. now rewrite Hmsg. Qed.

Lemma TryString_allocated (t : service.InterpolatedString) :
  service.TryString t msg w = Some (service.eval t d, w).
Proof using Hmsg. unfold service.TryString, bind. now rewrite load_allocated. Qed.

Lemma AsBytes_allocated :
  service.AsBytes msg w = Some (message.AsBytes d, w).
Proof using Hmsg. unfold service.AsBytes, bind. now rewrite load_allocated. Qed.

(** Copying allocates a new address and leaves the old ones alone. *)
Lemma Copy_allocated :
  service.Copy msg w =
  Some (fresh (dom (heap w)),
        {| heap := <[fresh (dom (heap w)) := d]> (heap w);
           exchange := exchange w |}).
Proof using Hmsg. unfold service.Copy, bind. now rewrite load_allocated. Qed.

Lemma SetBytes_allocated (b : list byte) :
  service.SetBytes msg b w =
  Some (tt, {| heap := <[msg := message.SetBytes b d]> (heap w);
               exchange := exchange w |}).
Proof using Hmsg.
  unfold service.SetBytes, bind. rewrite load_allocated.
  unfold store. now rewrite Hmsg.
Qed.

End Primitives.

Lemma fresh_unallocated (h : gmap loc message.Part) :
  h !! fresh (dom h) = None.
Proof. apply not_elem_of_dom, is_fresh. Qed.

(** [computePrompt] only reads: it returns, and in the same world. *)
Lemma computePrompt_reads o msg w d :
  heap w !! msg = Some d ->
  exists r, ollama.computePrompt o msg w = Some (r, w).
Proof.
  intros Hmsg. unfold ollama.computePrompt.
  destruct (ollama.userPrompt o) as [t|].
  - rewrite (TryString_allocated _ _ _ Hmsg). eauto.
  - unfold bind. rewrite (AsBytes_allocated _ _ _ Hmsg).
    destruct (message.AsBytes d) as [b [e|]]; [eauto|].
    destruct (utf8.Valid b); simpl; eauto.
Qed.

Lemma last_cons_default {A} (x : A) (l : list A) (d : A) :
  List.last (x :: l) d = List.last l x.
Proof.
  revert x d. induction l as [|y l IH]; intros x d; [reflexivity|].
  change (List.last (x :: y :: l) d) with (List.last (y :: l) d).
  now rewrite !IH.
Qed.

(** The response loop with the callback of [generateCompletion]: every
    response is handed over, and the last one decides the result. *)
Lemma stream_keeps_last resps final g log :
  api.stream (fun resp (_ : string) => (api.Content (api.Response resp), None))
    resps final g log =
  ((List.last (map (fun r => api.Content (api.Response r)) resps) g, final),
   log ++ map api.Received resps).
Proof.
  revert g log. induction resps as [|resp rest IH]; intros g log.
  - simpl. now rewrite app_nil_r.
  - cbn [api.stream map]. rewrite IH, last_cons_default, <- app_assoc.
    reflexivity.
Qed.

Lemma generateCompletion_run o ctx sp up w :
  ollama.generateCompletion o ctx sp up w =
  let req := ollama.chatRequest o sp up in
  let '(resps, final) :=
    api.reply (ollama.client (ollama.base o)) (exchange w) ctx req in
  Some ((terminalContent resps, final),
        {| heap := heap w;
           exchange := exchange w ++ api.Sent ctx req :: map api.Received resps |}).
Proof.
  unfold ollama.generateCompletion, backend, api.Chat. simpl.
  destruct (api.reply _ _ _ _) as [resps final].
  rewrite stream_keeps_last, <- app_assoc. reflexivity.
Qed.

Lemma generateCompletion_heap o ctx sp up w r w' :
  ollama.generateCompletion o ctx sp up w = Some (r, w') -> heap w' = heap w.
Proof.
  rewrite generateCompletion_run. simpl.
  destruct (api.reply _ _ _ _). now intros [= <- <-].
Qed.

(** ** Prompt resolution *)

(** C1: user prompt resolution is ordered, first match wins.  With a
    user-prompt template configured, [computePrompt] returns what the
    template evaluates to on the message, whatever the payload; with none,
    and payload bytes that are valid UTF-8, it returns the text that has
    exactly those bytes. *)
Theorem computePrompt_first_match o msg w d :
  heap w !! msg = Some d ->
  (forall t, ollama.userPrompt o = Some t ->
     ollama.computePrompt o msg w = Some (service.eval t d, w)) /\
  (ollama.userPrompt o = None ->
   forall b, message.AsBytes d = (b, None) -> utf8.Valid b = true ->
     ollama.computePrompt o msg w = Some ((string_of_bytes b, None), w) /\
     bytes_of_string (string_of_bytes b) = b).
Proof.
  intros Hmsg. unfold ollama.computePrompt. split.
  - intros t ->. exact (TryString_allocated _ _ _ Hmsg t).
  - intros -> b Hb Hvalid. unfold bind.
    rewrite (AsBytes_allocated _ _ _ Hmsg), Hb, Hvalid. simpl. split.
    + reflexivity.
    + apply list_byte_of_string_of_list_byte.
Qed.

Lemma computePrompt_first_match_witness :
  ollama.computePrompt
    (sample.processor sample.oneShot (Some (sample.literal "")) None)
    1%positive (sample.world [xff; xfe])
  = Some (("", None), sample.world [xff; xfe]) /\
  ollama.computePrompt (sample.processor sample.oneShot None None)
    1%positive (sample.world (bytes_of_string "hello"))
  = Some (("hello", None), sample.world (bytes_of_string "hello")).
Proof.
  split.
  - apply (proj1 (computePrompt_first_match
                    (sample.processor sample.oneShot (Some (sample.literal "")) None)
                    1%positive (sample.world [xff; xfe])
                    (sample.part [xff; xfe]) eq_refl)
                 (sample.literal "")).
    reflexivity.
  - apply (proj2 (computePrompt_first_match
                    (sample.processor sample.oneShot None None)
                    1%positive (sample.world (bytes_of_string "hello"))
                    (sample.part (bytes_of_string "hello")) eq_refl)
                 eq_refl (bytes_of_string "hello")); reflexivity.
Defined.

(** How [Process] starts: the system prompt is resolved first, and its
    failure ends the call. *)
Lemma Process_system_failure o ctx msg w d sp e :
  heap w !! msg = Some d ->
  resolveSystem o d = (sp, Some e) ->
  ollama.Process o ctx msg w = Some (([], Some e), w).
Proof.
  intros Hmsg Hsys. unfold ollama.Process, resolveSystem in *.
  destruct (ollama.systemPrompt o) as [t|]; [|discriminate].
  unfold bind at 1. rewrite (TryString_allocated _ _ _ Hmsg), Hsys.
  reflexivity.
Qed.

(** ... and with the system prompt resolved, the user prompt is. *)
Lemma Process_user_failure o ctx msg w d sp up e :
  heap w !! msg = Some d ->
  resolveSystem o d = (sp, None) ->
  ollama.computePrompt o msg w = Some ((up, Some e), w) ->
  ollama.Process o ctx msg w = Some (([], Some e), w).
Proof.
  intros Hmsg Hsys Hup. unfold ollama.Process, resolveSystem in *.
  destruct (ollama.systemPrompt o) as [t|].
  - unfold bind at 1. rewrite (TryString_allocated _ _ _ Hmsg), Hsys.
    unfold bind at 1. now rewrite Hup.
  - unfold bind at 1. now rewrite Hup.
Qed.

Lemma Process_resolved o ctx msg w d sp up :
  heap w !! msg = Some d ->
  resolveSystem o d = (sp, None) ->
  ollama.computePrompt o msg w = Some ((up, None), w) ->
  ollama.Process o ctx msg w =
  match ollama.generateCompletion o ctx sp up w with
  | Some ((g, Some e), w1) => Some (([], Some e), w1)
  | Some ((g, None), w1) =>
    let m := fresh (dom (heap w)) in
    Some (([m], None),
          {| heap := <[m := message.SetBytes (bytes_of_string g) d]> (heap w);
             exchange := exchange w1 |})
  | None => None
  end.
Proof.
  intros Hmsg Hsys Hup.
  assert (Hrest :
    (r <- ollama.computePrompt o msg ;;
     let '(up, err) := r in
     match err with
     | Some e => ret ([], Some e)
     | None =>
       r <- ollama.generateCompletion o ctx sp up ;;
       let '(g, err) := r in
       match err with
       | Some e => ret ([], Some e)
       | None =>
         m <- service.Copy msg ;;
         _ <- service.SetBytes m (bytes_of_string g) ;;
         ret ([m], None)
       end
     end)%go w =
    match ollama.generateCompletion o ctx sp up w with
    | Some ((g, Some e), w1) => Some (([], Some e), w1)
    | Some ((g, None), w1) =>
      let m := fresh (dom (heap w)) in
      Some (([m], None),
            {| heap := <[m := message.SetBytes (bytes_of_string g) d]> (heap w);
               exchange := exchange w1 |})
    | None => None
    end).
  { unfold bind at 1. rewrite Hup. unfold bind at 1.
    destruct (ollama.generateCompletion o ctx sp up w) as [[[g [e|]] w1]|] eqn:Hgen;
      [reflexivity| |reflexivity].
    pose proof (generateCompletion_heap _ _ _ _ _ _ _ Hgen) as Hheap.
    assert (Hmsg1 : heap w1 !! msg = Some d) by now rewrite Hheap.
    unfold bind at 1. rewrite (Copy_allocated _ _ _ Hmsg1).
    unfold bind at 1.
    erewrite SetBytes_allocated by (simpl; apply lookup_insert_eq).
    simpl. rewrite insert_insert_eq, Hheap. reflexivity. }
  unfold ollama.Process, resolveSystem in *.
  destruct (ollama.systemPrompt o) as [t|].
  - unfold bind at 1. rewrite (TryString_allocated _ _ _ Hmsg), Hsys.
    exact Hrest.
  - injection Hsys as <-. exact Hrest.
Qed.

(** C2 (corrected): with no user-prompt template and a payload that is not
    valid UTF-8, [Process] returns no output message and an error, in an
    unchanged world: nothing is sent to the backend.  The error is
    "message payload contained invalid UTF8" when the system prompt
    resolves, and the error of the system-prompt template when that
    fails, since the system prompt is resolved first. *)
Theorem Process_invalid_utf8 o ctx msg w d b sp err :
  heap w !! msg = Some d ->
  ollama.userPrompt o = None ->
  message.AsBytes d = (b, None) ->
  utf8.Valid b = false ->
  resolveSystem o d = (sp, err) ->
  ollama.Process o ctx msg w =
  Some (([], Some (match err with
                   | Some e => e
                   | None => errors.New "message payload contained invalid UTF8"
                   end)), w).
Proof.
  intros Hmsg Huser Hb Hinvalid Hsys. destruct err as [e|].
  - now apply (Process_system_failure _ _ _ _ d sp).
  - apply (Process_user_failure _ _ _ _ d sp ""); [assumption..|].
    unfold ollama.computePrompt, bind.
    now rewrite Huser, (AsBytes_allocated _ _ _ Hmsg), Hb, Hinvalid.
Qed.

Lemma Process_invalid_utf8_witness :
  ollama.Process (sample.processor sample.oneShot None None)
    context.Background 1%positive (sample.world sample.invalid)
  = Some (([], Some (errors.New "message payload contained invalid UTF8")),
          sample.world sample.invalid).
Proof.
  apply (Process_invalid_utf8 (sample.processor sample.oneShot None None)
           context.Background 1%positive (sample.world sample.invalid)
           (sample.part sample.invalid) sample.invalid "" None);
    reflexivity.
Defined.

(** C2 as stated fails: the payload [0xFF 0xFE] is not valid UTF-8 and no
    user-prompt template is configured, yet the error that [Process]
    returns is that of the system-prompt template. *)
Lemma Process_invalid_utf8_counterexample :
  heap (sample.world sample.invalid) !! 1%positive
    = Some (sample.part sample.invalid) /\
  ollama.userPrompt sample.brokenSystem = None /\
  message.AsBytes (sample.part sample.invalid) = (sample.invalid, None) /\
  utf8.Valid sample.invalid = false /\
  ollama.Process sample.brokenSystem context.Background 1%positive
    (sample.world sample.invalid)
  = Some (([], Some (errors.New "field not found")),
          sample.world sample.invalid) /\
  Error (errors.New "field not found")
    <> "message payload contained invalid UTF8".
Proof. repeat split; try reflexivity. discriminate. Qed.

(** ** The request and the reply *)

(** C3: the request holds a system entry exactly when the system prompt is
    not empty, and then one; one user entry with the user prompt follows;
    streaming is disabled; and this is the request that goes out. *)
Theorem chatRequest_entries o ctx sp up w :
  let req := ollama.chatRequest o sp up in
  api.Messages req =
    (if decide (sp = "") then []
     else [ {| api.Role := "system"; api.Content := sp |} ])
    ++ [ {| api.Role := "user"; api.Content := up |} ] /\
  entries "system" req =
    (if decide (sp = "") then []
     else [ {| api.Role := "system"; api.Content := sp |} ]) /\
  entries "user" req = [ {| api.Role := "user"; api.Content := up |} ] /\
  api.Stream req = Some false /\
  exists r log,
    ollama.generateCompletion o ctx sp up w =
    Some (r, {| heap := heap w;
                exchange := exchange w ++ api.Sent ctx req :: log |}).
Proof.
  cbv zeta. repeat split.
  - unfold ollama.chatRequest. simpl.
    destruct (decide (sp <> "")), (decide (sp = ""));
      try contradiction; reflexivity.
  - unfold entries, ollama.chatRequest. simpl.
    destruct (decide (sp <> "")), (decide (sp = ""));
      try contradiction; reflexivity.
  - unfold entries, ollama.chatRequest. simpl.
    destruct (decide (sp <> "")); reflexivity.
  - rewrite generateCompletion_run. cbv zeta.
    destruct (api.reply _ _ _ _) as [resps final]. eauto.
Qed.

(** C5: when the backend delivers several responses, the callback sees
    each of them, in order, before [generateCompletion] returns, and the
    text returned is the content of the last one alone. *)
Theorem generateCompletion_terminal o ctx sp up w cs c final :
  api.reply (ollama.client (ollama.base o)) (exchange w) ctx
    (ollama.chatRequest o sp up) = (cs ++ [c], final) ->
  ollama.generateCompletion o ctx sp up w =
  Some ((api.Content (api.Response c), final),
        {| heap := heap w;
           exchange := exchange w
                       ++ api.Sent ctx (ollama.chatRequest o sp up)
                       :: map api.Received (cs ++ [c]) |}).
Proof.
  intros Hreply. rewrite generateCompletion_run. cbv zeta. rewrite Hreply.
  unfold terminalContent. rewrite List.map_app. cbn [map].
  now rewrite last_last.
Qed.

Lemma generateCompletion_terminal_witness :
  ollama.generateCompletion (sample.processor sample.chunked None None)
    context.Background "" "hello" (sample.world (bytes_of_string "hello"))
  = Some (("hi there", None),
          {| heap := heap (sample.world (bytes_of_string "hello"));
             exchange :=
               [ api.Sent context.Background
                   (ollama.chatRequest
                      (sample.processor sample.chunked None None) "" "hello");
                 api.Received (sample.response "hi" false);
                 api.Received (sample.response " there" false);
                 api.Received (sample.response "hi there" true) ] |}).
Proof.
  apply (generateCompletion_terminal
           (sample.processor sample.chunked None None) context.Background
           "" "hello" (sample.world (bytes_of_string "hello"))
           [sample.response "hi" false; sample.response " there" false]
           (sample.response "hi there" true) None).
  reflexivity.
Defined.

(** ** The outcome of [Process] *)

(** C4: when the prompts resolve and the backend call succeeds with text
    [g], [Process] returns a batch of one message, newly allocated, that
    has the metadata of the original and the bytes of [g] as payload. *)
Theorem Process_success o ctx msg w d sp up g w1 :
  heap w !! msg = Some d ->
  resolveSystem o d = (sp, None) ->
  ollama.computePrompt o msg w = Some ((up, None), w) ->
  ollama.generateCompletion o ctx sp up w = Some ((g, None), w1) ->
  let m := fresh (dom (heap w)) in
  ollama.Process o ctx msg w =
  Some (([m], None),
        {| heap := <[m := {| message.payload :=
                               message.RawBytes (bytes_of_string g);
                             message.metadata := message.metadata d |}]>
                   (heap w);
           exchange := exchange w1 |}) /\
  m <> msg /\ heap w !! m = None /\
  string_of_bytes (bytes_of_string g) = g.
Proof.
  intros Hmsg Hsys Hup Hgen m. repeat split.
  - rewrite (Process_resolved _ _ _ _ d sp up) by assumption.
    now rewrite Hgen.
  - intros Heq. subst m. rewrite <- Heq in Hmsg.
    now rewrite fresh_unallocated in Hmsg.
  - apply fresh_unallocated.
  - apply string_of_list_byte_of_string.
Qed.

Lemma Process_success_witness :
  ollama.Process (sample.processor sample.oneShot None None)
    context.Background 1%positive (sample.world (bytes_of_string "hello"))
  = Some (([2%positive], None),
          {| heap := <[2%positive := sample.part (bytes_of_string "hi there")]>
                     (heap (sample.world (bytes_of_string "hello")));
             exchange :=
               [ api.Sent context.Background
                   {| api.Model := "llama3";
                      api.Messages :=
                        [ {| api.Role := "user"; api.Content := "hello" |} ];
                      api.Stream := Some false |};
                 api.Received (sample.response "hi there" true) ] |}).
Proof.
  apply (Process_success (sample.processor sample.oneShot None None)
           context.Background 1%positive
           (sample.world (bytes_of_string "hello"))
           (sample.part (bytes_of_string "hello")) "" "hello" "hi there"
           {| heap := heap (sample.world (bytes_of_string "hello"));
              exchange :=
                [ api.Sent context.Background
                    {| api.Model := "llama3";
                       api.Messages :=
                         [ {| api.Role := "user"; api.Content := "hello" |} ];
                       api.Stream := Some false |};
                  api.Received (sample.response "hi there" true) ] |});
    reflexivity.
Defined.

(** C10: [Process] leaves the message it is given as it was.  It always
    returns; on success the batch holds one message at an address that was
    not in use, which alone is written; on an error the batch is empty and
    no message has changed. *)
Theorem Process_preserves_input o ctx msg w d :
  heap w !! msg = Some d ->
  exists r w',
    ollama.Process o ctx msg w = Some (r, w') /\
    heap w' !! msg = Some d /\
    match snd r with
    | None =>
      exists m g, fst r = [m] /\ m <> msg /\ heap w !! m = None /\
        heap w' = <[m := message.SetBytes (bytes_of_string g) d]> (heap w)
    | Some _ => fst r = [] /\ heap w' = heap w
    end.
Proof.
  intros Hmsg.
  destruct (resolveSystem o d) as [sp [e|]] eqn:Hsys.
  { rewrite (Process_system_failure _ _ _ _ d sp e) by assumption.
    eexists _, _. split; [reflexivity|]. simpl. auto. }
  destruct (computePrompt_reads o _ _ _ Hmsg) as [[up [e|]] Hup].
  { rewrite (Process_user_failure _ _ _ _ d sp up e) by assumption.
    eexists _, _. split; [reflexivity|]. simpl. auto. }
  rewrite (Process_resolved _ _ _ _ d sp up) by assumption.
  destruct (ollama.generateCompletion o ctx sp up w) as [[[g [e|]] w1]|] eqn:Hgen.
  - pose proof (generateCompletion_heap _ _ _ _ _ _ _ Hgen) as Hheap.
    eexists _, _. split; [reflexivity|]. simpl. rewrite Hheap. auto.
  - assert (Hne : fresh (dom (heap w)) <> msg).
    { intros Heq. rewrite <- Heq in Hmsg.
      now rewrite fresh_unallocated in Hmsg. }
    eexists _, _. split; [reflexivity|]. simpl. split.
    + now rewrite lookup_insert_ne.
    + exists (fresh (dom (heap w))), g.
      auto using fresh_unallocated.
  - rewrite generateCompletion_run in Hgen. cbv zeta in Hgen.
    destruct (api.reply _ _ _ _); discriminate.
Qed.

Lemma Process_preserves_input_witness :
  exists r w',
    ollama.Process (sample.processor sample.oneShot None None)
      context.Background 1%positive (sample.world (bytes_of_string "hello"))
    = Some (r, w') /\
    heap w' !! 1%positive = Some (sample.part (bytes_of_string "hello")) /\
    match snd r with
    | None =>
      exists m g, fst r = [m] /\ m <> 1%positive /\
        heap (sample.world (bytes_of_string "hello")) !! m = None /\
        heap w' = <[m := message.SetBytes (bytes_of_string g)
                            (sample.part (bytes_of_string "hello"))]>
                  (heap (sample.world (bytes_of_string "hello")))
    | Some _ =>
      fst r = [] /\ heap w' = heap (sample.world (bytes_of_string "hello"))
    end.
Proof.
  apply (Process_preserves_input (sample.processor sample.oneShot None None)
           context.Background 1%positive
           (sample.world (bytes_of_string "hello"))
           (sample.part (bytes_of_string "hello"))).
  reflexivity.
Defined.

(** ** The enterprise CLI: what a run leaves behind *)

Section Runs.
Import cli trace.
Variable initOutput : list Event -> ParsedConfig -> option error.

(** The engine can only reach the orchestrator's state through the hooks:
    a run appends hook events, and [fbLogger] is the logger of the last
    on-logger-init call. *)
Lemma RunCLIToCode_hooks (e : Engine) (st : State) :
  exists hs,
    events (snd (RunCLIToCode (hooks initOutput) e st)) = events st ++ hs /\
    forallb isHook hs = true /\
    fbLogger (snd (RunCLIToCode (hooks initOutput) e st))
      = fold_left capture hs (fbLogger st).
Proof.
  revert st.
  induction e as [code err|l k IH|r k IH|c k IH|s k IH]; intros st; simpl.
  - exists []. now rewrite app_nil_r.
  - destruct (IH (emit (SetFallbackLogger l)
                    {| fbLogger := Some l; events := events st |}))
      as (hs & Hev & Hhook & Hfb).
    exists (SetFallbackLogger l :: hs). simpl in *.
    now rewrite Hev, <- app_assoc.
  - destruct (IH (emit (Handle r) st)) as (hs & Hev & Hhook & Hfb).
    exists (Handle r :: hs). simpl in *. now rewrite Hev, <- app_assoc.
  - destruct (IH (initOutput (events st) (Namespace c "redpanda"))
                 (emit (InitOutputFromParsed (Namespace c "redpanda")) st))
      as (hs & Hev & Hhook & Hfb).
    exists (InitOutputFromParsed (Namespace c "redpanda") :: hs).
    simpl in *. now rewrite Hev, <- app_assoc.
  - destruct (IH None (emit (SetStreamSummary s) st))
      as (hs & Hev & Hhook & Hfb).
    exists (SetStreamSummary s :: hs). simpl in *.
    now rewrite Hev, <- app_assoc.
Qed.

Lemma fold_capture_app (a b : list Event) (fb : option loc) :
  fold_left capture (a ++ b) fb = fold_left capture b (fold_left capture a fb).
Proof. apply fold_left_app. Qed.

(** None of the hooks reports an error, stops, closes or exits. *)
Lemma hook_events_filtered (p : Event -> bool) (hs : list Event) :
  (forall e, isHook e = true -> p e = false) ->
  forallb isHook hs = true -> filter p hs = [].
Proof.
  intros Hp. induction hs as [|e hs IH]; simpl; [reflexivity|].
  intros [He Hhs]%andb_prop. rewrite filter_cons, (Hp e He). simpl.
  auto.
Qed.

Variable benthos : Settings -> Engine.
Variables id binaryName version dateBuilt : string.
Variable removeDefaultInputOutput : bool.

Local Notation run :=
  (engineRun initOutput benthos id binaryName version dateBuilt
     removeDefaultInputOutput).
Local Notation result :=
  (InitEnterpriseCLI initOutput benthos id binaryName version dateBuilt
     removeDefaultInputOutput).

(** The whole run, event by event. *)
Lemma InitEnterpriseCLI_trace :
  result =
  (events (snd run)
   ++ report (fbLogger (snd run)) (snd (fst run))
   ++ [TriggerEventStopped (snd (fst run)); Close context.Background]
   ++ (if decide (fst (fst run) <> 0) then [Exit (fst (fst run))] else []),
   if decide (fst (fst run) <> 0) then Some (fst (fst run)) else None).
Proof.
  unfold InitEnterpriseCLI, engineRun.
  destruct (RunCLIToCode _ _ _) as [[code err] st]. simpl.
  destruct (decide (code <> 0)); destruct err as [e|];
    try destruct (fbLogger st); simpl;
    rewrite <- ?app_assoc; reflexivity.
Qed.

Lemma engineRun_events :
  exists hs,
    events (snd run) = NewTopicLogger id :: hs /\
    forallb isHook hs = true /\
    fbLogger (snd run) = captured (events (snd run)).
Proof.
  unfold engineRun.
  destruct (RunCLIToCode_hooks
              (benthos (settings binaryName version dateBuilt
                          removeDefaultInputOutput))
              {| fbLogger := None; events := [NewTopicLogger id] |})
    as (hs & Hev & Hhook & Hfb).
  exists hs. rewrite Hev, Hfb. simpl. auto.
Qed.

Lemma report_filtered (p : Event -> bool) fb err :
  (forall l msg, p (LoggerError l msg) = false) ->
  (forall msg, p (StderrPrintln msg) = false) ->
  filter p (report fb err) = [].
Proof.
  intros Hl Hs. destruct err as [e|], fb as [l|]; simpl; try reflexivity;
    rewrite filter_cons, ?Hl, ?Hs; reflexivity.
Qed.

(** C6: [TriggerEventStopped] is called exactly once in a run, with the
    error that the engine returned, nil or not; the call comes after
    everything the engine run did and right before the one [Close]. *)
Theorem TriggerEventStopped_exactly_once :
  filter isStopped (fst result) = [TriggerEventStopped (snd (fst run))] /\
  exists before after,
    fst result =
      (events (snd run) ++ before)
      ++ [TriggerEventStopped (snd (fst run)); Close context.Background]
      ++ after /\
    filter isStopped (events (snd run) ++ before) = [] /\
    filter isClose (events (snd run) ++ before) = [] /\
    filter isStopped after = [] /\
    filter isClose after = [].
Proof.
  rewrite InitEnterpriseCLI_trace.
  destruct engineRun_events as (hs & Hev & Hhook & _).
  assert (Hs : filter isStopped (events (snd run)) = []).
  { rewrite Hev, filter_cons. simpl.
    apply hook_events_filtered; [|assumption]. now intros []. }
  assert (Hc : filter isClose (events (snd run)) = []).
  { rewrite Hev, filter_cons. simpl.
    apply hook_events_filtered; [|assumption]. now intros []. }
  cbn [fst]. split.
  - rewrite !filter_app, Hs, report_filtered by reflexivity.
    destruct (decide (fst (fst run) <> 0)); reflexivity.
  - exists (report (fbLogger (snd run)) (snd (fst run))),
      (if decide (fst (fst run) <> 0) then [Exit (fst (fst run))] else []).
    rewrite !filter_app, Hs, Hc, !report_filtered by reflexivity.
    rewrite <- app_assoc.
    destruct (decide (fst (fst run) <> 0)); repeat split; reflexivity.
Qed.

(** C7 (corrected): only an error is reported.  When the engine returns
    an error, its text is reported once, right after the engine run:
    through the logger that the on-logger-init hook captured last, or on
    the standard error stream when that hook never ran.  When the engine
    returns no error, nothing is reported. *)
Theorem terminal_error_reported :
  fbLogger (snd run) = captured (events (snd run)) /\
  filter isReport (fst result)
    = report (captured (events (snd run))) (snd (fst run)) /\
  exists after,
    fst result =
      events (snd run)
      ++ report (captured (events (snd run))) (snd (fst run))
      ++ after /\
    filter isReport after = [].
Proof.
  rewrite InitEnterpriseCLI_trace.
  destruct engineRun_events as (hs & Hev & Hhook & Hfb).
  assert (Hr : filter isReport (events (snd run)) = []).
  { rewrite Hev, filter_cons. simpl.
    apply hook_events_filtered; [|assumption]. now intros []. }
  assert (Hrep : forall fb err, filter isReport (report fb err) = report fb err).
  { intros [l|] [e|]; reflexivity. }
  cbn [fst]. rewrite <- Hfb. split; [reflexivity|]. split.
  - rewrite !filter_app, Hr, Hrep.
    destruct (decide (fst (fst run) <> 0)); simpl; now rewrite app_nil_r.
  - eexists. split; [reflexivity|].
    destruct (decide (fst (fst run) <> 0)); reflexivity.
Qed.

(** C8 (corrected): the topic logger is closed exactly once, with
    [context.Background()], a context without deadline that is never
    cancelled: nothing in it bounds the call. *)
Theorem Close_with_Background :
  filter isClose (fst result) = [Close context.Background] /\
  context.Deadline context.Background = None /\
  context.Done context.Background = false /\
  context.bounded context.Background = false.
Proof.
  rewrite InitEnterpriseCLI_trace.
  destruct engineRun_events as (hs & Hev & Hhook & _).
  assert (Hc : filter isClose (events (snd run)) = []).
  { rewrite Hev, filter_cons. simpl.
    apply hook_events_filtered; [|assumption]. now intros []. }
  cbn [fst]. repeat split.
  rewrite !filter_app, Hc, report_filtered by reflexivity.
  destruct (decide (fst (fst run) <> 0)); reflexivity.
Qed.

(** C9: the exit status of the process is the exit code of the engine:
    with code 0 [InitEnterpriseCLI] returns and [os.Exit] is not called;
    any other code is given to [os.Exit] as it is, as the last thing
    done. *)
Theorem exit_code_propagated :
  exitStatus result = fst (fst run) /\
  snd result
    = (if decide (fst (fst run) = 0) then None else Some (fst (fst run))) /\
  filter isExit (fst result)
    = (if decide (fst (fst run) = 0) then [] else [Exit (fst (fst run))]) /\
  exists before,
    fst result =
      before ++
      (if decide (fst (fst run) = 0) then [] else [Exit (fst (fst run))]).
Proof.
  rewrite InitEnterpriseCLI_trace.
  destruct engineRun_events as (hs & Hev & Hhook & _).
  assert (He : filter isExit (events (snd run)) = []).
  { rewrite Hev, filter_cons. simpl.
    apply hook_events_filtered; [|assumption]. now intros []. }
  unfold exitStatus. cbn [fst snd].
  rewrite !filter_app, He, report_filtered by reflexivity.
  destruct (decide (fst (fst run) <> 0)) as [Hne|Heq],
           (decide (fst (fst run) = 0)) as [H0|Hn0];
    try contradiction; try (now destruct (Heq Hn0)).
  - repeat split; try reflexivity.
    eexists. rewrite !app_assoc. reflexivity.
  - repeat split; try (symmetry; assumption); try reflexivity.
    eexists. rewrite !app_nil_r. reflexivity.
Qed.

End Runs.

(** C7 as stated fails: the run ends without error, the logger was
    captured, and nothing is reported, through it or otherwise. *)
Lemma terminal_error_reported_counterexample :
  cli.InitEnterpriseCLI sampleCLI.noOutput sampleCLI.clean
    "run1" "redpanda-connect" "4.32.0" "2024-07-01" false
  = ([ cli.NewTopicLogger "run1";
       cli.SetFallbackLogger 7%positive;
       cli.InitOutputFromParsed
         {| cli.conf := 3%positive; cli.path := ["redpanda"] |};
       cli.SetStreamSummary 5%positive;
       cli.Handle "stream started";
       cli.TriggerEventStopped None;
       cli.Close context.Background ], None) /\
  filter trace.isReport
    (fst (cli.InitEnterpriseCLI sampleCLI.noOutput sampleCLI.clean
            "run1" "redpanda-connect" "4.32.0" "2024-07-01" false)) = [].
Proof. split; reflexivity. Qed.

(** C8 as stated fails: the context of the close call has no deadline
    and cannot be cancelled. *)
Lemma Close_with_Background_counterexample :
  cli.InitEnterpriseCLI sampleCLI.noOutput sampleCLI.late
    "run1" "redpanda-connect" "4.32.0" "2024-07-01" false
  = ([ cli.NewTopicLogger "run1";
       cli.SetFallbackLogger 7%positive;
       cli.InitOutputFromParsed
         {| cli.conf := 3%positive; cli.path := ["redpanda"] |};
       cli.LoggerError 7%positive "lint errors";
       cli.TriggerEventStopped (Some (errors.New "lint errors"));
       cli.Close {| context.Deadline := None; context.Done := false |};
       cli.Exit 2 ], Some 2) /\
  context.bounded {| context.Deadline := None; context.Done := false |}
    = false.
Proof. split; reflexivity. Qed.

(** ** Both paths of a run, on samples *)

Example stopped_once_on_success :
  filter trace.isStopped
    (fst (cli.InitEnterpriseCLI sampleCLI.noOutput sampleCLI.clean
            "run1" "redpanda-connect" "4.32.0" "2024-07-01" false))
  = [cli.TriggerEventStopped None].
Proof. reflexivity. Qed.

Example stopped_once_on_failure :
  filter trace.isStopped
    (fst (cli.InitEnterpriseCLI sampleCLI.noOutput sampleCLI.early
            "run1" "redpanda-connect" "4.32.0" "2024-07-01" false))
  = [cli.TriggerEventStopped (Some (errors.New "config file not found"))].
Proof. reflexivity. Qed.

Example early_failure_on_stderr :
  cli.InitEnterpriseCLI sampleCLI.noOutput sampleCLI.early
    "run1" "redpanda-connect" "4.32.0" "2024-07-01" false
  = ([ cli.NewTopicLogger "run1";
       cli.StderrPrintln "config file not found";
       cli.TriggerEventStopped (Some (errors.New "config file not found"));
       cli.Close context.Background;
       cli.Exit 1 ], Some 1).
Proof. reflexivity. Qed.

(** * Further properties of the processor *)

(** ** Requests sent *)

Lemma sent_app (a b : list api.Event) : sent (a ++ b) = sent a ++ sent b.
Proof. apply omap_app. Qed.

Lemma sent_Received (resps : list api.ChatResponse) :
  sent (map api.Received resps) = [].
Proof. induction resps as [|r rs IH]; [reflexivity|exact IH]. Qed.

Lemma sent_call log ctx req resps :
  sent (log ++ api.Sent ctx req :: map api.Received resps)
  = sent log ++ [(ctx, req)].
Proof.
  rewrite sent_app. f_equal.
  change (sent (api.Sent ctx req :: map api.Received resps))
    with ((ctx, req) :: sent (map api.Received resps)).
  now rewrite sent_Received.
Qed.

(** A call of [generateCompletion] is one request, whatever comes back. *)
Lemma generateCompletion_sent o ctx sp up w r w1 :
  ollama.generateCompletion o ctx sp up w = Some (r, w1) ->
  heap w1 = heap w /\
  sent (exchange w1)
  = sent (exchange w) ++ [(ctx, ollama.chatRequest o sp up)].
Proof.
  rewrite generateCompletion_run. cbv zeta.
  destruct (api.reply _ _ _ _) as [resps final].
  intros [= <- <-]. simpl. split; [reflexivity|apply sent_call].
Qed.

Lemma generateCompletion_total o ctx sp up w :
  exists r w1, ollama.generateCompletion o ctx sp up w = Some (r, w1).
Proof.
  rewrite generateCompletion_run. cbv zeta.
  destruct (api.reply _ _ _ _). eauto.
Qed.


(** X1: when the backend call ends with an error, [Process] returns that
    error and an empty batch; no copy of the message is made, and the
    text received before the error is dropped. *)
Theorem Process_backend_failure o ctx msg w d sp up g e w1 :
  heap w !! msg = Some d ->
  resolveSystem o d = (sp, None) ->
  ollama.computePrompt o msg w = Some ((up, None), w) ->
  ollama.generateCompletion o ctx sp up w = Some ((g, Some e), w1) ->
  ollama.Process o ctx msg w = Some (([], Some e), w1) /\
  heap w1 = heap w.
Proof.
  intros Hmsg Hsys Hup Hgen. split.
  - rewrite (Process_resolved _ _ _ _ d sp up) by assumption.
    now rewrite Hgen.
  - exact (generateCompletion_heap _ _ _ _ _ _ _ Hgen).
Qed.

Lemma Process_backend_failure_witness :
  ollama.Process (sample.processor sampleBackend.dropped None None)
    context.Background 1%positive (sample.world (bytes_of_string "hello"))
  = Some (([], Some (errors.New "connection reset")),
          {| heap := heap (sample.world (bytes_of_string "hello"));
             exchange :=
               [ api.Sent context.Background
                   (ollama.chatRequest
                      (sample.processor sampleBackend.dropped None None)
                      "" "hello");
                 api.Received (sample.response "hi" false) ] |}) /\
  heap {| heap := heap (sample.world (bytes_of_string "hello"));
          exchange :=
            [ api.Sent context.Background
                (ollama.chatRequest
                   (sample.processor sampleBackend.dropped None None)
                   "" "hello");
              api.Received (sample.response "hi" false) ] |}
  = heap (sample.world (bytes_of_string "hello")).
Proof.
  apply (Process_backend_failure
           (sample.processor sampleBackend.dropped None None)
           context.Background 1%positive
           (sample.world (bytes_of_string "hello"))
           (sample.part (bytes_of_string "hello")) "" "hello" "hi"
           (errors.New "connection reset"));
    reflexivity.
Defined.

(** The requests of one call of [Process]. *)
Lemma Process_sent o ctx msg w d sp es up eu :
  heap w !! msg = Some d ->
  resolveSystem o d = (sp, es) ->
  ollama.computePrompt o msg w = Some ((up, eu), w) ->
  exists r w',
    ollama.Process o ctx msg w = Some (r, w') /\
    sent (exchange w')
    = sent (exchange w)
      ++ match es, eu with
         | None, None => [(ctx, ollama.chatRequest o sp up)]
         | _, _ => []
         end.
Proof.
  intros Hmsg Hsys Hup. destruct es as [e|].
  { rewrite (Process_system_failure _ _ _ _ d sp e) by assumption.
    eexists _, _. split; [reflexivity|]. now rewrite app_nil_r. }
  destruct eu as [e|].
  { rewrite (Process_user_failure _ _ _ _ d sp up e) by assumption.
    eexists _, _. split; [reflexivity|]. now rewrite app_nil_r. }
  rewrite (Process_resolved _ _ _ _ d sp up) by assumption.
  destruct (generateCompletion_total o ctx sp up w) as ([g [e|]] & w1 & Hgen);
    rewrite Hgen; destruct (generateCompletion_sent _ _ _ _ _ _ _ Hgen)
    as [_ Hsent]; eexists _, _; (split; [reflexivity|exact Hsent]).
Qed.



(** ** Failures of prompt resolution *)



(** X4: when a prompt fails to resolve, [Process] returns the error with
    an empty batch and leaves the world as it was; when both the system
    and the user prompt fail, the error is that of the system prompt. *)
Theorem Process_resolution_failure o ctx msg w d sp es up eu e :
  heap w !! msg = Some d ->
  resolveSystem o d = (sp, es) ->
  ollama.computePrompt o msg w = Some ((up, eu), w) ->
  match es with Some es' => Some es' | None => eu end = Some e ->
  ollama.Process o ctx msg w = Some (([], Some e), w).
Proof.
  intros Hmsg Hsys Hup He. destruct es as [es'|].
  - injection He as <-. now apply (Process_system_failure _ _ _ _ d sp).
  - subst eu. now apply (Process_user_failure _ _ _ _ d sp up).
Qed.

Lemma Process_resolution_failure_witness :
  ollama.Process
    (sample.processor sample.oneShot
       (Some (sample.failing "bad mapping"))
       (Some (sample.failing "field not found")))
    context.Background 1%positive (sample.world (bytes_of_string "hello"))
  = Some (([], Some (errors.New "field not found")),
          sample.world (bytes_of_string "hello")).
Proof.
  apply (Process_resolution_failure
           (sample.processor sample.oneShot
              (Some (sample.failing "bad mapping"))
              (Some (sample.failing "field not found")))
           context.Background 1%positive
           (sample.world (bytes_of_string "hello"))
           (sample.part (bytes_of_string "hello"))
           "" (Some (errors.New "field not found"))
           "" (Some (errors.New "bad mapping")));
    reflexivity.
Defined.

(** ** Edge cases of the reply *)

(** X5: when the backend ends the call without a single response, the
    generated text is empty: with an error [Process] returns it, and
    without one the output message has an empty payload. *)
Theorem Process_empty_reply o ctx msg w d sp up final :
  heap w !! msg = Some d ->
  resolveSystem o d = (sp, None) ->
  ollama.computePrompt o msg w = Some ((up, None), w) ->
  api.reply (ollama.client (ollama.base o)) (exchange w) ctx
    (ollama.chatRequest o sp up) = ([], final) ->
  ollama.Process o ctx msg w =
  match final with
  | Some e =>
    Some (([], Some e),
          {| heap := heap w;
             exchange := exchange w
                         ++ [api.Sent ctx (ollama.chatRequest o sp up)] |})
  | None =>
    Some (([fresh (dom (heap w))], None),
          {| heap := <[fresh (dom (heap w)) :=
                         {| message.payload := message.RawBytes [];
                            message.metadata := message.metadata d |}]>
                     (heap w);
             exchange := exchange w
                         ++ [api.Sent ctx (ollama.chatRequest o sp up)] |})
  end.
Proof.
  intros Hmsg Hsys Hup Hreply.
  rewrite (Process_resolved _ _ _ _ d sp up) by assumption.
  rewrite generateCompletion_run. cbv zeta. rewrite Hreply.
  destruct final; reflexivity.
Qed.

Lemma Process_empty_reply_witness :
  ollama.Process (sample.processor sampleBackend.silent None None)
    context.Background 1%positive (sample.world (bytes_of_string "hello"))
  = Some (([2%positive], None),
          {| heap := <[2%positive := sample.part []]>
                     (heap (sample.world (bytes_of_string "hello")));
             exchange :=
               [ api.Sent context.Background
                   (ollama.chatRequest
                      (sample.processor sampleBackend.silent None None)
                      "" "hello") ] |}).
Proof.
  apply (Process_empty_reply
           (sample.processor sampleBackend.silent None None)
           context.Background 1%positive
           (sample.world (bytes_of_string "hello"))
           (sample.part (bytes_of_string "hello")) "" "hello" None);
    reflexivity.
Defined.

(** ** Calling [Process] again *)

(** What a call of [Process] does to the heap. *)
Lemma Process_outcome o ctx msg w d :
  heap w !! msg = Some d ->
  exists r w',
    ollama.Process o ctx msg w = Some (r, w') /\
    match snd r with
    | None =>
      exists g, fst r = [fresh (dom (heap w))] /\
        heap w' = <[fresh (dom (heap w)) :=
                      message.SetBytes (bytes_of_string g) d]> (heap w)
    | Some _ => fst r = [] /\ heap w' = heap w
    end.
Proof.
  intros Hmsg.
  destruct (resolveSystem o d) as [sp [e|]] eqn:Hsys.
  { rewrite (Process_system_failure _ _ _ _ d sp e) by assumption.
    eexists _, _. split; [reflexivity|]. simpl. auto. }
  destruct (computePrompt_reads o _ _ _ Hmsg) as [[up [e|]] Hup].
  { rewrite (Process_user_failure _ _ _ _ d sp up e) by assumption.
    eexists _, _. split; [reflexivity|]. simpl. auto. }
  rewrite (Process_resolved _ _ _ _ d sp up) by assumption.
  destruct (generateCompletion_total o ctx sp up w) as ([g [e|]] & w1 & Hgen);
    rewrite Hgen; eexists _, _; (split; [reflexivity|]); simpl.
  - split; [reflexivity|].
    exact (generateCompletion_heap _ _ _ _ _ _ _ Hgen).
  - eauto.
Qed.

Lemma Process_keeps_message o ctx msg w d r w' :
  heap w !! msg = Some d ->
  ollama.Process o ctx msg w = Some (r, w') ->
  heap w' !! msg = Some d.
Proof.
  intros Hmsg Hrun.
  destruct (Process_outcome o ctx msg w d Hmsg) as (r0 & w0 & Hrun0 & Hheap).
  rewrite Hrun in Hrun0. injection Hrun0 as <- <-.
  destruct (snd r).
  - destruct Hheap as [_ ->]. assumption.
  - destruct Hheap as (g & _ & ->).
    rewrite lookup_insert_ne; [assumption|].
    intros Heq. rewrite <- Heq in Hmsg.
    now rewrite fresh_unallocated in Hmsg.
Qed.



(** X7: two successful calls of [Process] on the same message return
    two different new messages, neither of them the input; the second
    call leaves the output of the first as it was. *)
Theorem Process_outputs_distinct o ctx ctx' msg w d m1 w1 m2 w2 :
  heap w !! msg = Some d ->
  ollama.Process o ctx msg w = Some (([m1], None), w1) ->
  ollama.Process o ctx' msg w1 = Some (([m2], None), w2) ->
  m1 <> msg /\ m2 <> msg /\ m1 <> m2 /\
  heap w2 !! m1 = heap w1 !! m1 /\
  heap w2 !! msg = Some d.
Proof.
  intros Hmsg Hrun1 Hrun2.
  pose proof (Process_keeps_message _ _ _ _ _ _ _ Hmsg Hrun1) as Hmsg1.
  pose proof (Process_keeps_message _ _ _ _ _ _ _ Hmsg1 Hrun2) as Hmsg2.
  destruct (Process_outcome o ctx msg w d Hmsg) as (r & w' & Hrun & Hheap).
  rewrite Hrun1 in Hrun. injection Hrun as <- <-.
  destruct Hheap as (g1 & [= ->] & Hheap1).
  destruct (Process_outcome o ctx' msg w1 d Hmsg1) as (r & w' & Hrun & Hheap).
  rewrite Hrun2 in Hrun. injection Hrun as <- <-.
  destruct Hheap as (g2 & [= ->] & Hheap2).
  assert (Hne1 : fresh (dom (heap w)) <> msg).
  { intros Heq. rewrite <- Heq in Hmsg.
    now rewrite fresh_unallocated in Hmsg. }
  assert (Hne2 : fresh (dom (heap w1)) <> msg).
  { intros Heq. rewrite <- Heq in Hmsg1.
    now rewrite fresh_unallocated in Hmsg1. }
  assert (Hne : fresh (dom (heap w)) <> fresh (dom (heap w1))).
  { intros Heq. pose proof (fresh_unallocated (heap w1)) as Hnone.
    rewrite <- Heq, Hheap1, lookup_insert_eq in Hnone. discriminate. }
  repeat split; try assumption.
  rewrite Hheap2. now rewrite lookup_insert_ne by (intros Heq; now apply Hne).
Qed.

Lemma Process_outputs_distinct_witness :
  2%positive <> 1%positive /\ 3%positive <> 1%positive /\
  2%positive <> 3%positive /\
  heap sampleRetry.afterTwo !! 2%positive
    = heap sampleRetry.afterOne !! 2%positive /\
  heap sampleRetry.afterTwo !! 1%positive
    = Some (sample.part (bytes_of_string "hello")).
Proof.
  apply (Process_outputs_distinct
           (sample.processor sample.oneShot None None)
           context.Background context.Background 1%positive
           (sample.world (bytes_of_string "hello"))
           (sample.part (bytes_of_string "hello"))
           2%positive sampleRetry.afterOne 3%positive sampleRetry.afterTwo);
    reflexivity.
Defined.

(** ** Which payloads pass as prompts *)

Lemma Valid_ASCII (p : list byte) :
  forallb isASCII p = true -> utf8.Valid p = true.
Proof.
  induction p as [|b p IH]; [reflexivity|].
  intros [Hb Hp]%andb_prop. unfold isASCII in Hb.
  cbn [utf8.Valid]. cbv zeta. rewrite Hb. auto.
Qed.

Lemma between_never lo hi b :
  hi <= 0xBF -> neverInUTF8 b = true -> utf8.between lo hi b = false.
Proof.
  unfold neverInUTF8, utf8.between. intros Hhi Hb.
  apply andb_false_iff. right. apply Z.leb_gt.
  apply orb_prop in Hb as [Hb|Hb]; [apply orb_prop in Hb as [Hb|Hb]|].
  - apply Z.eqb_eq in Hb. lia.
  - apply Z.eqb_eq in Hb. lia.
  - apply Z.leb_le in Hb. lia.
Qed.

Lemma never_leads b :
  neverInUTF8 b = true ->
  (utf8.code b <? 0x80) = false /\
  ((0xC2 <=? utf8.code b) && (utf8.code b <=? 0xDF)) = false /\
  ((0xE0 <=? utf8.code b) && (utf8.code b <=? 0xEF)) = false /\
  ((0xF0 <=? utf8.code b) && (utf8.code b <=? 0xF4)) = false.
Proof.
  unfold neverInUTF8. intros Hb.
  assert (H : utf8.code b = 0xC0 \/ utf8.code b = 0xC1 \/ 0xF5 <= utf8.code b).
  { apply orb_prop in Hb as [Hb|Hb]; [apply orb_prop in Hb as [Hb|Hb]|].
    - left. now apply Z.eqb_eq.
    - right. left. now apply Z.eqb_eq.
    - right. right. now apply Z.leb_le. }
  repeat split; rewrite ?andb_false_iff, ?Z.ltb_ge, ?Z.leb_gt; lia.
Qed.

(** A byte that no encoding contains makes the bytes invalid, wherever
    it stands. *)
Lemma Valid_never (n : nat) :
  forall p, (length p <= n)%nat ->
  existsb neverInUTF8 p = true -> utf8.Valid p = false.
Proof.
  induction n as [|n IH]; intros p Hlen Hex.
  { destruct p; [discriminate|simpl in Hlen; lia]. }
  destruct p as [|b0 p1]; [discriminate|].
  simpl in Hlen. cbn [existsb] in Hex. cbn [utf8.Valid]. cbv zeta.
  destruct (neverInUTF8 b0) eqn:Hb0.
  { destruct (never_leads b0 Hb0) as (-> & -> & -> & ->). reflexivity. }
  simpl in Hex.
  destruct (utf8.code b0 <? 0x80); [apply IH; [lia|assumption]|].
  destruct ((0xC2 <=? utf8.code b0) && (utf8.code b0 <=? 0xDF)).
  { destruct p1 as [|b1 p2]; [reflexivity|].
    simpl in Hlen. cbn [existsb] in Hex.
    destruct (neverInUTF8 b1) eqn:Hb1.
    - now rewrite (between_never _ _ b1).
    - simpl in Hex. rewrite (IH p2) by (lia || assumption).
      apply andb_false_r. }
  destruct ((0xE0 <=? utf8.code b0) && (utf8.code b0 <=? 0xEF)).
  { destruct p1 as [|b1 [|b2 p3]]; try reflexivity.
    simpl in Hlen. cbn [existsb] in Hex.
    destruct (neverInUTF8 b1) eqn:Hb1.
    { rewrite (between_never _ _ b1); [reflexivity| |assumption].
      destruct (utf8.code b0 =? 0xED); lia. }
    destruct (neverInUTF8 b2) eqn:Hb2.
    { rewrite (between_never _ _ b2) by (lia || assumption).
      now rewrite andb_false_r. }
    simpl in Hex. rewrite (IH p3) by (lia || assumption).
    apply andb_false_r. }
  destruct ((0xF0 <=? utf8.code b0) && (utf8.code b0 <=? 0xF4)); [|reflexivity].
  destruct p1 as [|b1 [|b2 [|b3 p4]]]; try reflexivity.
  simpl in Hlen. cbn [existsb] in Hex.
  destruct (neverInUTF8 b1) eqn:Hb1.
  { rewrite (between_never _ _ b1); [reflexivity| |assumption].
    destruct (utf8.code b0 =? 0xF4); lia. }
  destruct (neverInUTF8 b2) eqn:Hb2.
  { rewrite (between_never _ _ b2) by (lia || assumption).
    now rewrite andb_false_r. }
  destruct (neverInUTF8 b3) eqn:Hb3.
  { rewrite (between_never _ _ b3) by (lia || assumption).
    now rewrite andb_false_r. }
  simpl in Hex. rewrite (IH p4) by (lia || assumption).
  apply andb_false_r.
Qed.

(** X8: with no user-prompt template, a payload of ASCII bytes, empty or
    not, always resolves, to the text with those bytes. *)
Theorem computePrompt_ASCII o msg w d b :
  heap w !! msg = Some d ->
  ollama.userPrompt o = None ->
  message.AsBytes d = (b, None) ->
  forallb isASCII b = true ->
  ollama.computePrompt o msg w = Some ((string_of_bytes b, None), w).
Proof.
  intros Hmsg Huser Hb Hascii. unfold ollama.computePrompt, bind.
  rewrite Huser, (AsBytes_allocated _ _ _ Hmsg), Hb.
  now rewrite (Valid_ASCII b Hascii).
Qed.

Lemma computePrompt_ASCII_witness :
  ollama.computePrompt (sample.processor sample.oneShot None None)
    1%positive (sample.world [])
  = Some ((string_of_bytes [], None), sample.world []).
Proof.
  apply (computePrompt_ASCII (sample.processor sample.oneShot None None)
           1%positive (sample.world []) (sample.part []) []);
    reflexivity.
Defined.

(** X9: with no user-prompt template, a payload that holds one of the
    bytes [0xC0], [0xC1], [0xF5 .. 0xFF] anywhere is refused as invalid
    UTF-8. *)
Theorem computePrompt_refuses_byte o msg w d b :
  heap w !! msg = Some d ->
  ollama.userPrompt o = None ->
  message.AsBytes d = (b, None) ->
  existsb neverInUTF8 b = true ->
  ollama.computePrompt o msg w =
  Some (("", Some (errors.New "message payload contained invalid UTF8")), w).
Proof.
  intros Hmsg Huser Hb Hnever. unfold ollama.computePrompt, bind.
  rewrite Huser, (AsBytes_allocated _ _ _ Hmsg), Hb.
  now rewrite (Valid_never (length b) b (le_n _) Hnever).
Qed.

Lemma computePrompt_refuses_byte_witness :
  ollama.computePrompt (sample.processor sample.oneShot None None)
    1%positive (sample.world (bytes_of_string "caf" ++ [xc3; xa9; xff]))
  = Some (("", Some (errors.New "message payload contained invalid UTF8")),
          sample.world (bytes_of_string "caf" ++ [xc3; xa9; xff])).
Proof.
  apply (computePrompt_refuses_byte
           (sample.processor sample.oneShot None None) 1%positive
           (sample.world (bytes_of_string "caf" ++ [xc3; xa9; xff]))
           (sample.part (bytes_of_string "caf" ++ [xc3; xa9; xff]))
           (bytes_of_string "caf" ++ [xc3; xa9; xff]));
    reflexivity.
Defined.

(** ** Processors in sequence *)



(** * Construction of the processor *)

Section Construction.
Import ollamaConfig.
Context {Resources : Type}.
Variable newBaseProcessor :
  ParsedConfig -> Resources -> ollama.baseOllamaProcessor + error.

(** The error, if any, of compiling a field that is set. *)
Local Notation compileError conf name :=
  (if Contains conf name then snd (FieldInterpolatedString conf name)
   else None).

Local Notation compiled conf name :=
  (if Contains conf name then fst (FieldInterpolatedString conf name)
   else None).

(** What a processor that was built holds. *)
Lemma makeOllamaCompletionProcessor_built conf mgr p err :
  makeOllamaCompletionProcessor newBaseProcessor conf mgr = (Some p, err) ->
  err = None /\
  ollama.userPrompt p = compiled conf ocpFieldUserPrompt /\
  ollama.systemPrompt p = compiled conf ocpFieldSystemPrompt /\
  newBaseProcessor conf mgr = inl (ollama.base p).
Proof.
  unfold makeOllamaCompletionProcessor.
  destruct (Contains conf ocpFieldUserPrompt);
    [destruct (FieldInterpolatedString conf ocpFieldUserPrompt) as [pu [eu|]];
       [discriminate|]|];
    (destruct (Contains conf ocpFieldSystemPrompt);
     [destruct (FieldInterpolatedString conf ocpFieldSystemPrompt)
        as [ps [es|]]; [discriminate|]|]);
    destruct (newBaseProcessor conf mgr) as [b|e]; try discriminate;
    intros [= <- <-]; auto.
Qed.

(** X10: a processor built from a configuration without a [prompt] field
    submits the payload itself: for a payload of valid UTF-8 bytes the
    user prompt is the text with those bytes. *)
Theorem makeOllamaCompletionProcessor_default_prompt conf mgr p msg w d b :
  Contains conf ocpFieldUserPrompt = false ->
  makeOllamaCompletionProcessor newBaseProcessor conf mgr = (Some p, None) ->
  heap w !! msg = Some d ->
  message.AsBytes d = (b, None) ->
  utf8.Valid b = true ->
  ollama.computePrompt p msg w = Some ((string_of_bytes b, None), w).
Proof.
  intros Hconf Hmake Hmsg Hb Hvalid.
  destruct (makeOllamaCompletionProcessor_built _ _ _ _ Hmake)
    as (_ & Huser & _).
  rewrite Hconf in Huser.
  unfold ollama.computePrompt, bind.
  now rewrite Huser, (AsBytes_allocated _ _ _ Hmsg), Hb, Hvalid.
Qed.

(** X11: the constructor fails with the first error in the order
    [prompt], [system_prompt], base processor, where a field that is not
    set cannot fail; and it returns a processor exactly when there is no
    error. *)
Theorem makeOllamaCompletionProcessor_first_error conf mgr :
  snd (makeOllamaCompletionProcessor newBaseProcessor conf mgr)
  = match compileError conf ocpFieldUserPrompt with
    | Some e => Some e
    | None =>
      match compileError conf ocpFieldSystemPrompt with
      | Some e => Some e
      | None =>
        match newBaseProcessor conf mgr with
        | inr e => Some e
        | inl _ => None
        end
      end
    end /\
  (fst (makeOllamaCompletionProcessor newBaseProcessor conf mgr) = None <->
   snd (makeOllamaCompletionProcessor newBaseProcessor conf mgr) <> None).
Proof.
  unfold makeOllamaCompletionProcessor.
  destruct (Contains conf ocpFieldUserPrompt);
    [destruct (FieldInterpolatedString conf ocpFieldUserPrompt) as [pu [eu|]]|];
    try (destruct (Contains conf ocpFieldSystemPrompt);
         [destruct (FieldInterpolatedString conf ocpFieldSystemPrompt)
            as [ps [es|]]|]);
    try destruct (newBaseProcessor conf mgr) as [b|e];
    simpl; (split; [reflexivity|]); split; congruence.
Qed.

(** X12: a processor built from a configuration without a
    [system_prompt] field never sends a system entry. *)
Theorem makeOllamaCompletionProcessor_no_system conf mgr p ctx msg w d :
  Contains conf ocpFieldSystemPrompt = false ->
  makeOllamaCompletionProcessor newBaseProcessor conf mgr = (Some p, None) ->
  heap w !! msg = Some d ->
  exists r w' reqs,
    ollama.Process p ctx msg w = Some (r, w') /\
    sent (exchange w') = sent (exchange w) ++ reqs /\
    Forall (fun cr => entries "system" (snd cr) = []) reqs.
Proof.
  intros Hconf Hmake Hmsg.
  destruct (makeOllamaCompletionProcessor_built _ _ _ _ Hmake)
    as (_ & _ & Hsystem & _).
  rewrite Hconf in Hsystem.
  assert (Hsys : resolveSystem p d = ("", None)).
  { unfold resolveSystem. now rewrite Hsystem. }
  destruct (computePrompt_reads p _ _ _ Hmsg) as [[up eu] Hup].
  destruct (Process_sent p ctx msg w d "" None up eu Hmsg Hsys Hup)
    as (r & w' & Hrun & Hsent).
  exists r, w'. eexists. split; [exact Hrun|]. split; [exact Hsent|].
  destruct eu; constructor; [|constructor].
  unfold entries, ollama.chatRequest. simpl.
  destruct (decide ("" <> "")); [congruence|reflexivity].
Qed.

End Construction.

Lemma makeOllamaCompletionProcessor_default_prompt_witness :
  ollama.computePrompt
    {| ollama.base := {| ollama.model := "llama3";
                         ollama.client := sample.oneShot |};
       ollama.userPrompt := None;
       ollama.systemPrompt := None |}
    1%positive (sample.world (bytes_of_string "hello"))
  = Some ((string_of_bytes (bytes_of_string "hello"), None),
          sample.world (bytes_of_string "hello")).
Proof.
  apply (makeOllamaCompletionProcessor_default_prompt sampleConfig.newBase
           sampleConfig.modelOnly tt _ 1%positive
           (sample.world (bytes_of_string "hello"))
           (sample.part (bytes_of_string "hello"))
           (bytes_of_string "hello"));
    reflexivity.
Defined.

Lemma makeOllamaCompletionProcessor_no_system_witness :
  exists r w' reqs,
    ollama.Process
      {| ollama.base := {| ollama.model := "llama3";
                           ollama.client := sample.oneShot |};
         ollama.userPrompt := None;
         ollama.systemPrompt := None |}
      context.Background 1%positive (sample.world (bytes_of_string "hello"))
    = Some (r, w') /\
    sent (exchange w')
    = sent (exchange (sample.world (bytes_of_string "hello"))) ++ reqs /\
    Forall (fun cr => entries "system" (snd cr) = []) reqs.
Proof.
  apply (makeOllamaCompletionProcessor_no_system sampleConfig.newBase
           sampleConfig.modelOnly tt _ context.Background 1%positive
           (sample.world (bytes_of_string "hello"))
           (sample.part (bytes_of_string "hello")));
    reflexivity.
Defined.

(** The constructor on samples: the error of [prompt] comes before that
    of [system_prompt], which comes before that of the base processor. *)
Example makeOllamaCompletionProcessor_prompt_first :
  ollamaConfig.makeOllamaCompletionProcessor sampleConfig.noBase
    sampleConfig.badPrompts tt
  = (None, Some (errors.New "failed to parse prompt")).
Proof. reflexivity. Qed.

Example makeOllamaCompletionProcessor_system_second :
  ollamaConfig.makeOllamaCompletionProcessor sampleConfig.noBase
    sampleConfig.badSystem tt
  = (None, Some (errors.New "failed to parse system_prompt")).
Proof. reflexivity. Qed.

Example makeOllamaCompletionProcessor_base_last :
  ollamaConfig.makeOllamaCompletionProcessor sampleConfig.noBase
    sampleConfig.modelOnly tt
  = (None, Some (errors.New "failed to start ollama")).
Proof. reflexivity. Qed.

(** * Further properties of a run of the CLI *)

Section MoreRuns.
Import cli trace traceMore.
Variable initOutput : list Event -> ParsedConfig -> option error.

(** Once a logger is captured, one stays captured. *)
Lemma capture_stays (hs : list Event) (l : loc) :
  exists l', fold_left capture hs (Some l) = Some l'.
Proof.
  revert l. induction hs as [|e hs IH]; intros l; [eauto|].
  destruct e; simpl; apply IH.
Qed.

Lemma capture_None (hs : list Event) (fb : option loc) :
  fold_left capture hs fb = None ->
  fb = None /\ filter isSetFallbackLogger hs = [].
Proof.
  revert fb. induction hs as [|e hs IH]; intros fb; [auto|].
  simpl. intros Hfold. destruct e; simpl in Hfold;
    try (destruct (IH _ Hfold) as [-> Hhs]; split; [reflexivity|];
         rewrite filter_cons; simpl; exact Hhs).
  destruct (capture_stays hs l) as [l' Hl']. congruence.
Qed.

Lemma capture_Some (hs : list Event) (fb : option loc) (l : loc) :
  fold_left capture hs fb = Some l ->
  fb = Some l \/ In (SetFallbackLogger l) hs.
Proof.
  revert fb. induction hs as [|e hs IH]; intros fb; [auto|].
  simpl. intros Hfold.
  destruct e; simpl in Hfold;
    try (destruct (IH _ Hfold) as [Hfb|Hin]; [now left|right; now right]).
  destruct (IH _ Hfold) as [[= ->]|Hin]; [right; now left|right; now right].
Qed.

Lemma In_hook_events (p : Event -> bool) (hs : list Event) (e : Event) :
  forallb isHook hs = true -> In e hs -> isHook e = true.
Proof.
  intros Hall Hin. rewrite forallb_forall in Hall. auto.
Qed.

(** The hooks initialise the output on the [redpanda] namespace only. *)
Lemma RunCLIToCode_namespace (e : Engine) (st : State) :
  Forall onRedpandaNamespace (events st) ->
  Forall onRedpandaNamespace
    (events (snd (RunCLIToCode (hooks initOutput) e st))).
Proof.
  revert st.
  induction e as [code err|l k IH|r k IH|c k IH|s k IH]; intros st Hst; simpl.
  - assumption.
  - apply IH. simpl. apply Forall_app. split; [assumption|].
    now repeat constructor.
  - apply IH. simpl. apply Forall_app. split; [assumption|].
    now repeat constructor.
  - apply IH. simpl. apply Forall_app. split; [assumption|].
    repeat constructor. now exists c.
  - apply IH. simpl. apply Forall_app. split; [assumption|].
    now repeat constructor.
Qed.

Variable benthos : Settings -> Engine.
Variables id binaryName version dateBuilt : string.
Variable removeDefaultInputOutput : bool.

Local Notation run :=
  (engineRun initOutput benthos id binaryName version dateBuilt
     removeDefaultInputOutput).
Local Notation result :=
  (InitEnterpriseCLI initOutput benthos id binaryName version dateBuilt
     removeDefaultInputOutput).

(** X13: the topic logger is created once, with the run identifier,
    before anything else happens. *)
Theorem NewTopicLogger_first :
  exists rest,
    fst result = NewTopicLogger id :: rest /\
    filter isNewTopicLogger rest = [].
Proof.
  rewrite InitEnterpriseCLI_trace.
  destruct (engineRun_events initOutput benthos id binaryName version
              dateBuilt removeDefaultInputOutput) as (hs & Hev & Hhook & _).
  cbn [fst]. rewrite Hev.
  exists (hs ++ report (fbLogger (snd run)) (snd (fst run))
          ++ [TriggerEventStopped (snd (fst run)); Close context.Background]
          ++ (if decide (fst (fst run) <> 0)
              then [Exit (fst (fst run))] else [])).
  split; [reflexivity|].
  rewrite !filter_app, report_filtered by reflexivity.
  rewrite (hook_events_filtered isNewTopicLogger hs);
    [|now intros []|assumption].
  destruct (decide (fst (fst run) <> 0)); reflexivity.
Qed.

(** X14: whatever configurations the engine hands to the on-config-parse
    hook, the output of the topic logger is only ever initialised from
    their [redpanda] namespace. *)
Theorem InitOutputFromParsed_redpanda :
  Forall onRedpandaNamespace (fst result).
Proof.
  rewrite InitEnterpriseCLI_trace. cbn [fst].
  apply Forall_app. split.
  - apply RunCLIToCode_namespace. now repeat constructor.
  - apply Forall_app. split.
    + destruct (fbLogger (snd run)), (snd (fst run)); now repeat constructor.
    + destruct (decide (fst (fst run) <> 0)); now repeat constructor.
Qed.

(** X15: an error goes to the standard error stream only in a run in
    which the on-logger-init hook never ran, and through a logger only
    if the hook was given that logger; never both ways. *)
Theorem report_channel :
  (forall msg, In (StderrPrintln msg) (fst result) ->
     filter isSetFallbackLogger (fst result) = [] /\
     filter isLoggerError (fst result) = []) /\
  (forall l msg, In (LoggerError l msg) (fst result) ->
     In (SetFallbackLogger l) (fst result) /\
     filter isStderr (fst result) = []).
Proof.
  rewrite InitEnterpriseCLI_trace.
  destruct (engineRun_events initOutput benthos id binaryName version
              dateBuilt removeDefaultInputOutput) as (hs & Hev & Hhook & Hfb).
  cbn [fst]. rewrite Hfb, Hev.
  unfold captured. cbn [fold_left capture].
  assert (Htail : forall e,
    In e ([TriggerEventStopped (snd (fst run)); Close context.Background]
          ++ (if decide (fst (fst run) <> 0)
              then [Exit (fst (fst run))] else [])) ->
    isReport e = false).
  { intros e. destruct (decide (fst (fst run) <> 0)); simpl;
      intros Hin; repeat (destruct Hin as [<-|Hin]; [reflexivity|]);
      destruct Hin. }
  assert (Hfilter : forall p,
    p (NewTopicLogger id) = false ->
    filter p hs = [] ->
    (forall err, p (TriggerEventStopped err) = false) ->
    (forall ctx, p (Close ctx) = false) ->
    (forall code, p (Exit code) = false) ->
    forall rep,
    filter p ((NewTopicLogger id :: hs) ++ rep
              ++ [TriggerEventStopped (snd (fst run));
                  Close context.Background]
              ++ (if decide (fst (fst run) <> 0)
                  then [Exit (fst (fst run))] else []))
    = filter p rep).
  { intros p Hnew Hhk Hstop Hclose Hexit rep.
    rewrite !filter_app, filter_cons, Hnew. simpl.
    rewrite Hhk.
    rewrite !filter_cons, Hstop, Hclose. simpl.
    destruct (decide (fst (fst run) <> 0));
      rewrite ?filter_cons, ?Hexit; simpl; now rewrite app_nil_r. }
  assert (Hrep : forall e,
    In e ((NewTopicLogger id :: hs)
          ++ report (fold_left capture hs None) (snd (fst run))
          ++ [TriggerEventStopped (snd (fst run));
              Close context.Background]
          ++ (if decide (fst (fst run) <> 0)
              then [Exit (fst (fst run))] else [])) ->
    isReport e = true ->
    In e (report (fold_left capture hs None) (snd (fst run)))).
  { intros e Hin Hrep. apply in_app_or in Hin as [[<-|Hin]|Hin].
    - discriminate.
    - pose proof (In_hook_events isReport hs e Hhook Hin).
      destruct e; discriminate.
    - apply in_app_or in Hin as [Hin|Hin]; [assumption|].
      rewrite (Htail e Hin) in Hrep. discriminate. }
  split.
  - intros msg Hin. apply Hrep in Hin; [|reflexivity].
    destruct (snd (fst run)) as [e|]; [|destruct Hin].
    destruct (fold_left capture hs None) as [l|] eqn:Hcap;
      simpl in Hin; destruct Hin as [Heq|[]]; [discriminate|].
    destruct (capture_None hs None Hcap) as [_ Hnone].
    split.
    + rewrite Hfilter by (reflexivity || assumption).
      simpl. rewrite filter_cons. reflexivity.
    + rewrite Hfilter;
        [|reflexivity
         |apply hook_events_filtered; [now intros []|assumption]
         |reflexivity..].
      simpl. rewrite filter_cons. reflexivity.
  - intros l msg Hin. apply Hrep in Hin; [|reflexivity].
    destruct (snd (fst run)) as [e|]; [|destruct Hin].
    destruct (fold_left capture hs None) as [l'|] eqn:Hcap;
      simpl in Hin; destruct Hin as [Heq|[]]; [|discriminate].
    injection Heq as <- _.
    destruct (capture_Some hs None l' Hcap) as [Hfb0|Hhs]; [discriminate|].
    split.
    + apply in_or_app. left. now right.
    + rewrite Hfilter;
        [|reflexivity
         |apply hook_events_filtered; [now intros []|assumption]
         |reflexivity..].
      simpl. rewrite filter_cons. reflexivity.
Qed.

End MoreRuns.

Lemma report_channel_witness :
  (filter traceMore.isSetFallbackLogger
     (fst (cli.InitEnterpriseCLI sampleCLI.noOutput sampleCLI.early
             "run1" "redpanda-connect" "4.32.0" "2024-07-01" false)) = [] /\
   filter traceMore.isLoggerError
     (fst (cli.InitEnterpriseCLI sampleCLI.noOutput sampleCLI.early
             "run1" "redpanda-connect" "4.32.0" "2024-07-01" false)) = []) /\
  (In (cli.SetFallbackLogger 7%positive)
     (fst (cli.InitEnterpriseCLI sampleCLI.noOutput sampleCLI.late
             "run1" "redpanda-connect" "4.32.0" "2024-07-01" false)) /\
   filter traceMore.isStderr
     (fst (cli.InitEnterpriseCLI sampleCLI.noOutput sampleCLI.late
             "run1" "redpanda-connect" "4.32.0" "2024-07-01" false)) = []).
Proof.
  split.
  - apply (proj1 (report_channel sampleCLI.noOutput sampleCLI.early
                    "run1" "redpanda-connect" "4.32.0" "2024-07-01" false)
                 "config file not found").
    simpl. tauto.
  - apply (proj2 (report_channel sampleCLI.noOutput sampleCLI.late
                    "run1" "redpanda-connect" "4.32.0" "2024-07-01" false)
                 7%positive "lint errors").
    simpl. tauto.
Defined.
